(** * SimpleCache and AngularOneDataFetcher

    A shallow embedding of the two classes of the repository:

    - [SimpleCache]: an expiring key-value cache over [window.localStorage];
    - [AngularOneDataFetcher]: the fetch-or-cache orchestrator built on it.

    JavaScript values are modelled by the JSON-shaped fragment that can sit
    in the cache.  Numbers are integers (epoch milliseconds and minute
    counts), an idealisation that is exact below 2^53.  What the host
    environment and the imported libraries provide ([JSON], the relational
    comparison of non-numbers, lodash's [snakeCase], the members of the
    Storage object, the text of numbers from 10^21 on) is an interface,
    so the theorems hold for every implementation of it; a small
    executable stand-in, [Fake], is used to run the definitions on
    concrete inputs.

    [Date.now()] is a parameter of the code that reads it.  A promise is
    described by how it ends up, and an operation of the fetcher by the
    promise it returns, the store it leaves and the calls it made to its
    collaborators, in order. *)

From Stdlib Require Import ZArith String Ascii List Bool Lia.
From Stdlib Require Import DecimalString.
From stdpp Require Import base option list strings gmap.

Local Open Scope Z_scope.

(** ** JavaScript values *)

#[local] Unset Elimination Schemes.
Inductive JsVal : Type :=
  | JUndefined
  | JNull
  | JBool (b : bool)
  | JNum (n : Z)
  | JStr (s : string)
  | JArr (items : list JsVal)
  | JObj (fields : list (string * JsVal)).
#[local] Set Elimination Schemes.

(** What a [throw] or a promise rejection carries: any value, or one of
    the error objects raised by the host. *)
Inductive Reason : Type :=
  | Raised (v : JsVal)
  | SyntaxError
  | TypeError
  | QuotaExceededError.

(** The result of running a synchronous piece of code. *)
Inductive Completion (A : Type) : Type :=
  | Normal (a : A)
  | Throw (e : Reason).
Arguments Normal {A} a.
Arguments Throw {A} e.

#[global] Instance Completion_ret : MRet Completion := @Normal.
#[global] Instance Completion_bind : MBind Completion := fun A B k c =>
  match c with
  | Normal a => k a
  | Throw e => Throw e
  end.

(** ToBoolean: [!v] is [negb (truthy v)]. *)
Definition truthy (v : JsVal) : bool :=
  match v with
  | JUndefined | JNull => false
  | JBool b => b
  | JNum n => negb (n =? 0)
  | JStr s => negb (String.eqb s "")
  | JArr _ | JObj _ => true
  end.

(** Own properties of an object literal, first binding wins. *)
Fixpoint own (name : string) (fields : list (string * JsVal)) : option JsVal :=
  match fields with
  | [] => None
  | (k, v) :: rest => if String.eqb k name then Some v else own name rest
  end.

(** [v.name] for the two names the code reads, [value] and [expires].
    Neither is defined on a prototype, so a missing own property reads as
    [undefined]; so does any property of a primitive or of an array.  The
    code guards every read with a truthiness test, so the cases [null] and
    [undefined] (a TypeError in JavaScript) are never reached. *)
Definition prop (v : JsVal) (name : string) : JsVal :=
  match v with
  | JObj fields => default JUndefined (own name fields)
  | _ => JUndefined
  end.

(** [v.hasOwnProperty(name)] for [name = 'expires'].  The method is
    inherited from [Object.prototype]; an object that carries an own
    property called [hasOwnProperty] shadows it with a non-function (no
    modelled value is callable) and the call raises a TypeError. *)
Definition hasOwnProperty (v : JsVal) (name : string) : Completion bool :=
  match v with
  | JUndefined | JNull => Throw TypeError
  | JObj fields =>
      match own "hasOwnProperty" fields with
      | Some _ => Throw TypeError
      | None => Normal (bool_decide (is_Some (own name fields)))
      end
  | _ => Normal false
  end.

(** ** The host environment and the imported libraries *)

Class Host : Type := {
  (** [JSON.parse(text)]; [None] stands for the SyntaxError it raises. *)
  JSON_parse : string -> option JsVal;
  (** [JSON.stringify(v)], as the text that an assignment to a storage
      slot keeps. *)
  JSON_stringify : JsVal -> string;
  (** [v <= n] for [v] a string, an array or an object, which goes
      through ToPrimitive and StringToNumber. *)
  coerced_le : JsVal -> Z -> Completion bool;
  (** lodash's [snakeCase]. *)
  _snakeCase : JsVal -> string;
  (** [String(window.localStorage[name])] when [name] is found on the
      Storage object or its prototypes ([length], [key], [getItem],
      [constructor], ...): such a name reads the member and not the item
      stored under it.  The number is the count of stored items, which is
      what [length] reads.  [None] when the name finds no member. *)
  Storage_member : nat -> string -> option string;
  (** [parseInt(n, 10)] for a number from 10^21 on, whose text is in
      exponent notation. *)
  parseInt_exponent : Z -> Z
}.

(** [v <= n] where [n] is a number: the abstract relational comparison
    after ToNumber; a comparison with NaN is false. *)
Definition js_le `{Host} (v : JsVal) (n : Z) : Completion bool :=
  match v with
  | JUndefined => Normal false
  | JNull => Normal (0 <=? n)
  | JBool b => Normal (Z.b2z b <=? n)
  | JNum m => Normal (m <=? n)
  | JStr _ | JArr _ | JObj _ => coerced_le v n
  end.

(** [window.localStorage]: the stored items.  An assignment
    [window.localStorage[key] = text] stores an item under any key; the
    storage has room for every write. *)
Abbreviation Storage := (gmap string string).

(** [window.localStorage[key]] read as an argument of [JSON.parse], which
    applies ToString.  A key that names a member of the Storage object
    reads the member, whatever is stored under it; any other key reads
    its item, and [undefined] when there is none. *)
Definition slot_text `{Host} (ls : Storage) (key : string) : string :=
  match Storage_member (size ls) key with
  | Some member => member
  | None => default "undefined" (ls !! key)
  end.

(** A key that names no member of the Storage object, however many items
    are stored. *)
Definition data_key `{Host} (key : string) : Prop :=
  forall count : nat, Storage_member count key = None.

(** ** SimpleCache *)

Module SimpleCache.

Record t : Type := { defaultCacheMinutes : Z }.

Definition constructor (defaultCacheMinutes : Z) : t :=
  {| defaultCacheMinutes := defaultCacheMinutes |}.

(** [parseInt(n, 10)] on an integral number reads the digits of its
    text: all of them below 10^21, and what comes before the exponent
    from there on. *)
Definition parseInt10 `{Host} (n : Z) : Z :=
  if Z.abs n <? 10 ^ 21 then n else parseInt_exponent n.

Section Methods.
Context `{Host}.

Definition _isExpired (now : Z) (dataFromCache : JsVal) : Completion bool :=
  if negb (truthy dataFromCache) then Normal true
  else
    hasOwnProperty dataFromCache "expires" ≫= λ has : bool,
    if has then js_le (prop dataFromCache "expires") now else Normal false.

Definition _applyExpirationDate (now : Z) (valueToCache : JsVal) (cacheMinutes : Z) : JsVal :=
  if truthy valueToCache && truthy (prop valueToCache "expires") then valueToCache
  else JObj [("expires", JNum (now + 60000 * cacheMinutes)); ("value", valueToCache)].

Definition get (ls : Storage) (now : Z) (key : string) : Completion JsVal :=
  match JSON_parse (slot_text ls key) with
  | None => Throw SyntaxError
  | Some data =>
      (if negb (truthy data) then Normal true else _isExpired now data)
      ≫= λ expired : bool,
      let data := if expired then JNull else data in
      Normal (if truthy data then prop data "value" else data)
  end.

(** [cacheMinutes = None] is the omitted (or [null]) third argument. *)
Definition set (c : t) (ls : Storage) (now : Z)
    (key : string) (value : JsVal) (cacheMinutes : option Z) : Storage :=
  let cacheMinutes :=
    match cacheMinutes with
    | None => 24 * parseInt10 (defaultCacheMinutes c)
    | Some m => m
    end in
  <[key := JSON_stringify (_applyExpirationDate now value cacheMinutes)]> ls.

Definition forever (ls : Storage) (key : string) (value : JsVal) : Storage :=
  <[key := JSON_stringify (JObj [("value", value)])]> ls.

Definition forget (ls : Storage) (key : string) : Storage :=
  <[key := "null"]> ls.

End Methods.
End SimpleCache.

(** ** AngularOneDataFetcher *)

(** Modelled from the spec: [_isEmpty] is lodash's [isEmpty], imported by
    the fetcher and not defined in the repository.  The spec has an empty
    object or collection count as a miss.  In lodash, [null] and
    [undefined] are empty, a string or an array is empty when its length
    is zero, and anything else is empty when it has no own enumerable
    property, which is the case of every number and boolean. *)
Definition _isEmpty (v : JsVal) : bool :=
  match v with
  | JUndefined | JNull => true
  | JBool _ | JNum _ => true
  | JStr s => String.eqb s ""
  | JArr items => match items with [] => true | _ => false end
  | JObj fields => match fields with [] => true | _ => false end
  end.

(** How a promise ends up: fulfilled, rejected, or never settled. *)
Inductive Promise : Type :=
  | Resolved (v : JsVal)
  | Rejected (e : Reason)
  | Pending.

(** A piece of code running over a state [St]: it completes or throws, and
    leaves a state behind. *)
Definition Action (St A : Type) : Type := St -> Completion A * St.

#[global] Instance Action_ret St : MRet (Action St) := fun A a s => (Normal a, s).
#[global] Instance Action_bind St : MBind (Action St) := fun A B k t s =>
  match t s with
  | (Normal a, s') => k a s'
  | (Throw e, s') => (Throw e, s')
  end.

(** The promise that [$q(executor)] is making is one more component of
    the state of its executor; the code of the enclosing scope runs on
    the rest. *)
Definition lift {St A} (t : Action St A) : Action (St * Promise) A := fun '(s, cell) =>
  let '(c, s') := t s in (c, (s', cell)).

(** Only the first call of [resolve] or [reject] settles the promise. *)
Definition settle (p cell : Promise) : Promise :=
  match cell with
  | Pending => p
  | _ => cell
  end.

Definition resolve {St} (v : JsVal) : Action (St * Promise) unit := fun '(s, cell) =>
  (Normal (), (s, settle (Resolved v) cell)).

Definition reject {St} (e : Reason) : Action (St * Promise) unit := fun '(s, cell) =>
  (Normal (), (s, settle (Rejected e) cell)).

(** [$q(executor)], Angular's promise constructor: it runs the executor
    at once and lets its exceptions through to the caller.  The callbacks
    that the executor registers are run in their turn, and the promise is
    read when they are done. *)
Definition _q {St} (executor : Action (St * Promise) unit) : Action St Promise := fun s =>
  match executor (s, Pending) with
  | (Normal _, (s', cell)) => (Normal cell, s')
  | (Throw e, (s', _)) => (Throw e, s')
  end.

(** [p.then(onFulfilled, onRejected)]: the callback that matches the
    settlement of [p] is run; the derived promise is fulfilled with what
    the callback returns and rejected with what it throws.  Without a
    second callback a rejection passes through. *)
Definition then_ {St} (p : Promise) (onFulfilled : JsVal -> Action St JsVal)
    (onRejected : option (Reason -> Action St JsVal)) : Action St Promise := fun s =>
  let run (t : Action St JsVal) :=
    match t s with
    | (Normal v, s') => (Normal (Resolved v), s')
    | (Throw e, s') => (Normal (Rejected e), s')
    end in
  match p with
  | Resolved v => run (onFulfilled v)
  | Rejected e =>
      match onRejected with
      | Some handler => run (handler e)
      | None => (Normal (Rejected e), s)
      end
  | Pending => (Normal Pending, s)
  end.

(** The calls made to the collaborators, in order. *)
Inductive Event : Type :=
  | Show
  | Hide
  | Alert (message : string)
  | Fetch (params : list JsVal).

(** The caching service handed to the constructor, over a store [S].
    A write may raise; [now] is the reading of [Date.now()]. *)
Record CacheService (S : Type) : Type := {
  cs_get : S -> Z -> string -> Completion JsVal;
  cs_set : S -> Z -> string -> JsVal -> option Z -> Completion unit * S;
  cs_forever : S -> string -> JsVal -> Completion unit * S
}.
Arguments cs_get {S} _ _ _ _.
Arguments cs_set {S} _ _ _ _ _ _.
Arguments cs_forever {S} _ _ _ _.

(** A [SimpleCache] as caching service; its storage has room for every
    write. *)
Definition simpleCacheService `{Host} (c : SimpleCache.t) : CacheService Storage := {|
  cs_get := SimpleCache.get;
  cs_set := fun ls now key value cacheMinutes =>
    (Normal (), SimpleCache.set c ls now key value cacheMinutes);
  cs_forever := fun ls key value => (Normal (), SimpleCache.forever ls key value)
|}.

(** A [SimpleCache] whose storage is full: every assignment to a slot
    raises QuotaExceededError and leaves the storage as it was. *)
Definition fullStorageService `{Host} : CacheService Storage := {|
  cs_get := SimpleCache.get;
  cs_set := fun ls _ _ _ _ => (Throw QuotaExceededError, ls);
  cs_forever := fun ls _ _ => (Throw QuotaExceededError, ls)
|}.

Module AngularOneDataFetcher.

(** [_cacheDuration]: [null], [false], or a number. *)
Inductive Duration : Type :=
  | UseDefault
  | NeverExpire
  | Custom (n : Z).

Record t (S : Type) : Type := {
  (** the settlement of the promise that the strategy returns *)
  _fetchingStrategy : list JsVal -> Promise;
  _key : option string;
  _cacheService : option (CacheService S);
  (** whether a loader was passed in *)
  _ionicLoading : bool;
  _cacheDuration : Duration
}.
Arguments _fetchingStrategy {S} _ _.
Arguments _key {S} _.
Arguments _cacheService {S} _.
Arguments _ionicLoading {S} _.
Arguments _cacheDuration {S} _.

Record World (S : Type) : Type := { store : S; log : list Event }.
Arguments store {S} _.
Arguments log {S} _.

Definition alertMessage : string :=
  "Error retrieving data. Please make sure you are connected to the Internet.".

Section Methods.
Context `{Host} {S : Type}.

Definition constructor (fetchingStrategy : list JsVal -> Promise)
    (key : option string) (CacheService : option (CacheService S))
    (ionicLoading : bool) : t S :=
  {| _fetchingStrategy := fetchingStrategy;
     _key := key;
     _cacheService := CacheService;
     _ionicLoading := ionicLoading;
     _cacheDuration := UseDefault |}.

Definition cacheDuration (f : t S) (hours : Z) : t S :=
  {| _fetchingStrategy := _fetchingStrategy f;
     _key := _key f;
     _cacheService := _cacheService f;
     _ionicLoading := _ionicLoading f;
     _cacheDuration := Custom (SimpleCache.parseInt10 hours) |}.

Definition neverExpire (f : t S) : t S :=
  {| _fetchingStrategy := _fetchingStrategy f;
     _key := _key f;
     _cacheService := _cacheService f;
     _ionicLoading := _ionicLoading f;
     _cacheDuration := NeverExpire |}.

(** String concatenation turns a [null] key into the text [null]. *)
Definition _buildKey (f : t S) (params : list JsVal) : string :=
  fold_left (fun result param => result +:+ "_" +:+ _snakeCase param)
    params (default "null" (_key f)).

(** A call of a collaborator, recorded in the log. *)
Definition emit (e : Event) : Action (World S) unit := fun w =>
  (Normal (), {| store := store w; log := log w ++ [e] |}).

(** [this._$ionicLoading && this._$ionicLoading.show(...)], and the same
    for [hide]. *)
Definition loading (f : t S) (e : Event) : Action (World S) unit :=
  if _ionicLoading f then emit e else mret ().

(** [this._fetchingStrategy(...params)]. *)
Definition fetchingStrategy (f : t S) (params : list JsVal) : Action (World S) Promise :=
  emit (Fetch params);; mret (_fetchingStrategy f params).

(** What [_saveToCache] returns is never used. *)
Definition _saveToCache (f : t S) (now : Z) (data : JsVal) (params : list JsVal)
    : Action (World S) unit := fun w =>
  match _cacheService f with
  | None => (Normal (), w)
  | Some cs =>
      let key := _buildKey f params in
      let '(c, st) :=
        match _cacheDuration f with
        | NeverExpire => cs_forever cs (store w) key data
        | UseDefault => cs_set cs (store w) now key data None
        | Custom n => cs_set cs (store w) now key data (Some n)
        end in
      (c, {| store := st; log := log w |})
  end.

Definition _getFromCache (f : t S) (now : Z) (params : list JsVal)
    : Action (World S) JsVal := fun w =>
  match _cacheService f with
  | None => (Normal (JBool false), w)
  | Some cs => (cs_get cs (store w) now (_buildKey f params), w)
  end.

Definition _fetchFromOrigin (f : t S) (params : list JsVal) : Action (World S) Promise :=
  loading f Show;;
  _q (p ← lift (fetchingStrategy f params);
      then_ p
        (λ data, lift (loading f Hide);; resolve data;; mret JUndefined)
        (Some (λ result,
           lift (loading f Hide);;
           lift (emit (Alert alertMessage));;
           reject result;; mret JUndefined));;
      mret ()).

(** [later] is the clock when the fetch settles. *)
Definition refresh (f : t S) (later : Z) (params : list JsVal) : Action (World S) Promise :=
  p ← _fetchFromOrigin f params;
  then_ p (λ data, _saveToCache f later data params;; mret data) None.

(** [now] is the clock at the call, [later] the clock when the fetch
    settles. *)
Definition get (f : t S) (now later : Z) (params : list JsVal) : Action (World S) Promise :=
  _q (data ← lift (_getFromCache f now params);
      if truthy data && negb (_isEmpty data) then resolve data
      else
        p ← lift (_fetchFromOrigin f params);
        then_ p
          (λ data, lift (_saveToCache f later data params);; resolve data;; mret JUndefined)
          (Some (λ result, reject result;; mret JUndefined));;
        mret ()).

End Methods.

(** Counting the calls of one kind in a log. *)
Definition is_show (e : Event) : bool := match e with Show => true | _ => false end.
Definition is_hide (e : Event) : bool := match e with Hide => true | _ => false end.
Definition is_alert (e : Event) : bool := match e with Alert _ => true | _ => false end.
Definition is_fetch (e : Event) : bool := match e with Fetch _ => true | _ => false end.
Definition count (p : Event -> bool) (events : list Event) : nat :=
  length (filter (fun e => p e = true) events).

End AngularOneDataFetcher.

(** ** An executable host

    A stand-in for the browser and for lodash, used to run the code on
    concrete inputs.  It covers compact JSON text over integers, strings
    without control characters, arrays and objects; numeric strings in
    decimal notation; [snakeCase] of integers and of lower-case words;
    and the members that a Storage object inherits.  Outside that
    fragment it is not the real host. *)

Module Fake.

Definition dquote : ascii := "034"%char.
Definition backslash : ascii := "092"%char.

Definition decimal (n : Z) : string := NilZero.string_of_int (Z.to_int n).

Fixpoint escape (s : string) : string :=
  match s with
  | EmptyString => EmptyString
  | String a rest =>
      if Ascii.eqb a dquote || Ascii.eqb a backslash
      then String backslash (String a (escape rest))
      else String a (escape rest)
  end.

Definition quote (s : string) : string :=
  String dquote (escape s +:+ String dquote EmptyString).

Fixpoint join (sep : string) (parts : list string) : string :=
  match parts with
  | [] => ""
  | [p] => p
  | p :: rest => p +:+ sep +:+ join sep rest
  end.

(** [JSON.stringify]: [None] is the [undefined] it returns for
    [undefined]; such a property is left out of an object and printed as
    [null] in an array. *)
Fixpoint stringify (v : JsVal) : option string :=
  match v with
  | JUndefined => None
  | JNull => Some "null"
  | JBool true => Some "true"
  | JBool false => Some "false"
  | JNum n => Some (decimal n)
  | JStr s => Some (quote s)
  | JArr items =>
      Some ("[" +:+ join "," (map (fun x => default "null" (stringify x)) items) +:+ "]")
  | JObj fields =>
      Some ("{" +:+ join "," (omap (fun kv =>
              match stringify (snd kv) with
              | Some text => Some (quote (fst kv) +:+ ":" +:+ text)
              | None => None
              end) fields) +:+ "}")
  end.

Definition is_ws (a : ascii) : bool :=
  Ascii.eqb a " " || Ascii.eqb a "009" || Ascii.eqb a "010" || Ascii.eqb a "013".

Fixpoint skip_ws (s : string) : string :=
  match s with
  | String a rest => if is_ws a then skip_ws rest else s
  | EmptyString => s
  end.

Fixpoint strip_prefix (p s : string) : option string :=
  match p, s with
  | EmptyString, _ => Some s
  | String a p', String b s' => if Ascii.eqb a b then strip_prefix p' s' else None
  | String _ _, EmptyString => None
  end.

Definition digit (a : ascii) : option Z :=
  let n := Z.of_nat (nat_of_ascii a) in
  if (48 <=? n) && (n <=? 57) then Some (n - 48) else None.

Fixpoint read_digits (acc : Z) (s : string) : Z * string :=
  match s with
  | String a rest =>
      match digit a with
      | Some d => read_digits (10 * acc + d) rest
      | None => (acc, s)
      end
  | EmptyString => (acc, s)
  end.

(** An integer literal (an optional minus sign, then zero or a digit
    string without a leading zero) that is not followed by a fraction or
    an exponent. *)
Definition read_int (s : string) : option (Z * string) :=
  let '(neg, body) :=
    match s with
    | String "-" rest => (true, rest)
    | _ => (false, s)
    end in
  match body with
  | String a rest =>
      match digit a with
      | Some d =>
          let '(n, rest') := if d =? 0 then (0, rest) else read_digits d rest in
          match rest' with
          | String b _ =>
              if bool_decide (is_Some (digit b)) || Ascii.eqb b "." || Ascii.eqb b "e" || Ascii.eqb b "E"
              then None else Some (if neg then - n else n, rest')
          | EmptyString => Some (if neg then - n else n, rest')
          end
      | None => None
      end
  | EmptyString => None
  end.

(** The characters of a string literal after its opening quote. *)
Fixpoint read_string (s : string) : option (string * string) :=
  match s with
  | EmptyString => None
  | String a rest =>
      if Ascii.eqb a dquote then Some (EmptyString, rest)
      else if Ascii.eqb a backslash then
        match rest with
        | String b rest' =>
            if Ascii.eqb b dquote || Ascii.eqb b backslash then
              match read_string rest' with
              | Some (body, r) => Some (String b body, r)
              | None => None
              end
            else None
        | EmptyString => None
        end
      else
        match read_string rest with
        | Some (body, r) => Some (String a body, r)
        | None => None
        end
  end.

(** A repeated key keeps its first position and its last value. *)
Fixpoint assign (k : string) (v : JsVal) (fields : list (string * JsVal))
    : list (string * JsVal) :=
  match fields with
  | [] => [(k, v)]
  | (k', v') :: rest =>
      if String.eqb k' k then (k', v) :: rest else (k', v') :: assign k v rest
  end.

Fixpoint parse_value (fuel : nat) (s : string) : option (JsVal * string) :=
  match fuel with
  | O => None
  | S fuel =>
      let s := skip_ws s in
      match s with
      | EmptyString => None
      | String a rest =>
          if Ascii.eqb a "n" then (fun r => (JNull, r)) <$> strip_prefix "null" s
          else if Ascii.eqb a "t" then (fun r => (JBool true, r)) <$> strip_prefix "true" s
          else if Ascii.eqb a "f" then (fun r => (JBool false, r)) <$> strip_prefix "false" s
          else if Ascii.eqb a dquote then
            (fun '(body, r) => (JStr body, r)) <$> read_string rest
          else if Ascii.eqb a "[" then
            match skip_ws rest with
            | String "]" r => Some (JArr [], r)
            | _ => (fun '(items, r) => (JArr items, r)) <$> parse_items fuel rest
            end
          else if Ascii.eqb a "{" then
            match skip_ws rest with
            | String "}" r => Some (JObj [], r)
            | _ => (fun '(fields, r) => (JObj fields, r)) <$> parse_members fuel [] rest
            end
          else (fun '(n, r) => (JNum n, r)) <$> read_int s
      end
  end
with parse_items (fuel : nat) (s : string) : option (list JsVal * string) :=
  match fuel with
  | O => None
  | S fuel =>
      match parse_value fuel s with
      | Some (v, r) =>
          match skip_ws r with
          | String "," r' => (fun '(vs, r'') => (v :: vs, r'')) <$> parse_items fuel r'
          | String "]" r' => Some ([v], r')
          | _ => None
          end
      | None => None
      end
  end
with parse_members (fuel : nat) (acc : list (string * JsVal)) (s : string)
    : option (list (string * JsVal) * string) :=
  match fuel with
  | O => None
  | S fuel =>
      match skip_ws s with
      | String a rest =>
          if Ascii.eqb a dquote then
            match read_string rest with
            | Some (k, r) =>
                match skip_ws r with
                | String ":" r' =>
                    match parse_value fuel r' with
                    | Some (v, r'') =>
                        match skip_ws r'' with
                        | String "," r3 => parse_members fuel (assign k v acc) r3
                        | String "}" r3 => Some (assign k v acc, r3)
                        | _ => None
                        end
                    | None => None
                    end
                | _ => None
                end
            | None => None
            end
          else None
      | EmptyString => None
      end
  end.

Definition parse (text : string) : option JsVal :=
  match parse_value (S (String.length text)) text with
  | Some (v, rest) =>
      match skip_ws rest with
      | EmptyString => Some v
      | _ => None
      end
  | None => None
  end.

(** ToString of a value that is being coerced to a primitive. *)
Fixpoint to_string (v : JsVal) : string :=
  match v with
  | JUndefined => "undefined"
  | JNull => "null"
  | JBool true => "true"
  | JBool false => "false"
  | JNum n => decimal n
  | JStr s => s
  | JArr items =>
      join "," (map (fun x =>
        match x with
        | JUndefined | JNull => ""
        | _ => to_string x
        end) items)
  | JObj _ => "[object Object]"
  end.

(** StringToNumber on decimal integers; the empty string is zero and
    [None] is NaN. *)
Definition to_number (text : string) : option Z :=
  match skip_ws text with
  | EmptyString => Some 0
  | String a rest as body =>
      let '(neg, body) :=
        if Ascii.eqb a "-" then (true, rest)
        else if Ascii.eqb a "+" then (false, rest) else (false, body) in
      match body with
      | String b _ =>
          if bool_decide (is_Some (digit b)) then
            let '(n, rest') := read_digits 0 body in
            match skip_ws rest' with
            | EmptyString => Some (if neg then - n else n)
            | _ => None
            end
          else None
      | EmptyString => None
      end
  end.

Definition le (v : JsVal) (n : Z) : Completion bool :=
  Normal (match to_number (to_string v) with
          | Some m => m <=? n
          | None => false
          end).

Definition lower (a : ascii) : ascii :=
  let n := nat_of_ascii a in
  if (65 <=? n)%nat && (n <=? 90)%nat then ascii_of_nat (n + 32) else a.

Definition alnum (a : ascii) : bool :=
  let n := nat_of_ascii a in
  ((48 <=? n) && (n <=? 57) || (65 <=? n) && (n <=? 90) || (97 <=? n) && (n <=? 122))%nat.

(** The maximal runs of letters and digits, each in lower case. *)
Fixpoint words (cur : string) (s : string) : list string :=
  match s with
  | EmptyString => if String.eqb cur "" then [] else [cur]
  | String a rest =>
      if alnum a then words (cur +:+ String (lower a) EmptyString) rest
      else if String.eqb cur "" then words "" rest
      else cur :: words "" rest
  end.

Definition snakeCase (v : JsVal) : string :=
  match v with
  | JUndefined | JNull => ""
  | _ => join "_" (words "" (to_string v))
  end.

(** The functions that a Storage object inherits. *)
Definition methods : list string :=
  ["key"; "getItem"; "setItem"; "removeItem"; "clear"; "constructor";
   "hasOwnProperty"; "isPrototypeOf"; "propertyIsEnumerable";
   "toLocaleString"; "toString"; "valueOf"; "__defineGetter__";
   "__defineSetter__"; "__lookupGetter__"; "__lookupSetter__"].

Definition member (count : nat) (name : string) : option string :=
  if String.eqb name "length" then Some (decimal (Z.of_nat count))
  else if String.eqb name "__proto__" then Some "[object Storage]"
  else if existsb (String.eqb name) methods
  then Some ("function " +:+ name +:+ "() { [native code] }")
  else None.

(** The leading digit of the integer, with its sign. *)
Definition exponent_prefix (n : Z) : Z :=
  match decimal (Z.abs n) with
  | String a _ => Z.sgn n * default 0 (digit a)
  | EmptyString => 0
  end.

#[export] Instance host : Host := {|
  JSON_parse := parse;
  JSON_stringify := fun v => default "undefined" (stringify v);
  coerced_le := le;
  _snakeCase := snakeCase;
  Storage_member := member;
  parseInt_exponent := exponent_prefix
|}.

End Fake.

(** * Vocabulary of the statements *)

Module Terms.
Import AngularOneDataFetcher.

(** The guard of [_applyExpirationDate]: the value already looks like a
    cache entry. *)
Definition wrapped (v : JsVal) : bool := truthy v && truthy (prop v "expires").

(** The record that [set] builds around a value. *)
Definition entry (expires : Z) (value : JsVal) : JsVal :=
  JObj [("expires", JNum expires); ("value", value)].

(** Serialisation preserves the value: parsing its JSON text gives it
    back. *)
Definition survives `{Host} (v : JsVal) : Prop :=
  JSON_parse (JSON_stringify v) = Some v.

(** The test that [get] applies to what the cache returned. *)
Definition hit (data : JsVal) : bool := truthy data && negb (_isEmpty data).

(** Numbers, booleans, [null] and [undefined]: the primitives that are
    not array-like. *)
Definition non_collection_primitive (v : JsVal) : bool :=
  match v with
  | JUndefined | JNull | JBool _ | JNum _ => true
  | JStr _ | JArr _ | JObj _ => false
  end.

(** Between two logs, [show] and [hide] were called equally often. *)
Definition paired (before after : list Event) : Prop :=
  (count is_show after + count is_hide before
   = count is_hide after + count is_show before)%nat.

Section Logs.
Context `{Host} {S : Type}.
Implicit Types (f : t S) (w : World S) (params : list JsVal).

(** The call of the loader, when there is one. *)
Definition loader f (e : Event) : list Event :=
  if _ionicLoading f then [e] else [].

(** The log once the fetch has settled one way or the other. *)
Definition fetched f params (events : list Event) : list Event :=
  events ++ loader f Show ++ [Fetch params] ++ loader f Hide.

(** The log once the fetch has failed: the alert follows. *)
Definition failed f params (events : list Event) : list Event :=
  fetched f params events ++ [Alert alertMessage].

(** What the cache write of [_saveToCache] does to the store. *)
Definition saved f later data params (st : S) : Completion unit * S :=
  let '(c, w) := _saveToCache f later data params {| store := st; log := [] |} in
  (c, store w).

(** What the cache returns for the key built from the parameters. *)
Definition cached f now params (st : S) : Completion JsVal :=
  (_getFromCache f now params {| store := st; log := [] |}).1.

(** The fetch operation was invoked once more, and the outcome is that of
    the fetch. *)
Definition refetched f later params w (r : Completion Promise * World S) : Prop :=
  count is_fetch (log r.2) = Datatypes.S (count is_fetch (log w)) /\
  In (Fetch params) (log r.2) /\
  (forall d st, _fetchingStrategy f params = Resolved d ->
     saved f later d params (store w) = (Normal (), st) ->
     r = (Normal (Resolved d), {| store := st; log := fetched f params (log w) |})) /\
  (forall e, _fetchingStrategy f params = Rejected e ->
     r.1 = Normal (Rejected e)).

End Logs.
End Terms.

(** * Concrete inputs *)

Module Inputs.
Import AngularOneDataFetcher.

Definition ana : JsVal := JObj [("id", JNum 42); ("name", JStr "Ana")].

(** A value that already looks like a cache entry. *)
Definition lookalike : JsVal := JObj [("expires", JNum 99999999); ("value", JNum 7)].

(** A value that serialisation rewrites: [undefined] in an array is
    printed as [null]. *)
Definition holey : JsVal := JArr [JUndefined].

Definition networkError : Reason := Raised (JStr "network error").

(** A fetcher for the key [users] with a loader, over a given strategy and
    caching service. *)
Definition users (strategy : list JsVal -> Promise) (cs : CacheService Storage)
    : t Storage :=
  constructor (S := Storage) strategy (Some "users") (Some cs) true.

Definition world (ls : Storage) : World Storage := {| store := ls; log := [] |}.

End Inputs.

(** * Vocabulary of the further properties *)

Module MoreTerms.
Import AngularOneDataFetcher Terms.

(** Anything but an object literal. *)
Definition not_object (v : JsVal) : bool :=
  match v with
  | JObj _ => false
  | _ => true
  end.

Section Durations.
Context `{Host}.





End Durations.
End MoreTerms.

(** * Further concrete inputs *)

Module MoreInputs.
Import AngularOneDataFetcher Inputs.

Definition halfHour : SimpleCache.t := SimpleCache.constructor 30.

(** A fetcher with a loader and no caching service. *)
Definition uncached (strategy : list JsVal -> Promise) : t Storage :=
  constructor (S := Storage) strategy None None true.

(** The fetcher for [users] over a [SimpleCache], told to keep its data
    for one minute. *)
Definition usersForAMinute `{Host} (strategy : list JsVal -> Promise) : t Storage :=
  cacheDuration (users strategy (simpleCacheService halfHour)) 1.

End MoreInputs.

(** * Properties of SimpleCache *)

Module SimpleCacheProps.
Import SimpleCache Terms.

Section Generic.
Context `{Host}.

(** A key that names no member reads its item. *)
Lemma slot_text_item (ls : Storage) key :
  data_key key -> slot_text ls key = default "undefined" (ls !! key).
Proof. intros Hk. unfold slot_text. by rewrite Hk. Qed.

Lemma slot_text_insert (ls : Storage) key text :
  data_key key -> slot_text (<[key := text]> ls) key = text.
Proof. intros Hk. rewrite slot_text_item by done. by rewrite lookup_insert_eq. Qed.

Lemma applyExpirationDate_plain now v m :
  wrapped v = false -> _applyExpirationDate now v m = entry (now + 60000 * m) v.
Proof. unfold _applyExpirationDate, wrapped. by intros ->. Qed.

Lemma applyExpirationDate_wrapped now v m :
  wrapped v = true -> _applyExpirationDate now v m = v.
Proof. unfold _applyExpirationDate, wrapped. by intros ->. Qed.

(** An object with a numeric [expires] is compared with the clock. *)
Lemma isExpired_timestamp now fields e :
  own "hasOwnProperty" fields = None ->
  own "expires" fields = Some (JNum e) ->
  _isExpired now (JObj fields) = Normal (e <=? now).
Proof.
  intros Hm He. unfold _isExpired, hasOwnProperty, prop; simpl.
  by rewrite Hm, He.
Qed.

(** An object without [expires] never expires. *)
Lemma isExpired_no_timestamp now fields :
  own "hasOwnProperty" fields = None ->
  own "expires" fields = None ->
  _isExpired now (JObj fields) = Normal false.
Proof.
  intros Hm He. unfold _isExpired, hasOwnProperty; simpl.
  by rewrite Hm, He.
Qed.

(** What [get] makes of a slot whose text parses to a live object. *)
Lemma get_live ls now key fields :
  JSON_parse (slot_text ls key) = Some (JObj fields) ->
  _isExpired now (JObj fields) = Normal false ->
  get ls now key = Normal (prop (JObj fields) "value").
Proof. intros Hp Hx. unfold get. rewrite Hp; simpl. by rewrite Hx. Qed.

Lemma get_expired ls now key data :
  JSON_parse (slot_text ls key) = Some data ->
  _isExpired now data = Normal true ->
  get ls now key = Normal JNull.
Proof.
  intros Hp Hx. unfold get. rewrite Hp.
  destruct (negb (truthy data)); simpl; [done | by rewrite Hx].
Qed.

(** With no third argument, [set] takes 24 times the default of the
    store as its number of minutes. *)
Lemma set_default_minutes c ls now key v :
  set c ls now key v None
  = set c ls now key v (Some (24 * parseInt10 (defaultCacheMinutes c))).
Proof. reflexivity. Qed.

Lemma set_lookup c ls now key v m :
  set c ls now key v (Some m) !! key
  = Some (JSON_stringify (_applyExpirationDate now v m)).
Proof. unfold set. by rewrite lookup_insert_eq. Qed.

(** A slot that was never written reads [undefined], which is not JSON
    text. *)
Lemma get_never_written (ls : Storage) now key :
  data_key key ->
  JSON_parse "undefined" = None ->
  ls !! key = None ->
  get ls now key = Throw SyntaxError.
Proof.
  intros Hd Hu Hk. unfold get. rewrite slot_text_item by done.
  rewrite Hk; simpl. by rewrite Hu.
Qed.

(** C1 (code): when the TTL is omitted, the entry that [set] persists
    for a plain value expires [24 * d * 60000] milliseconds ahead, where
    [d] is the default of the store (below 10^21): 24 times what the
    claim, and the names [defaultCacheMinutes] and [cacheMinutes], say. *)
Theorem C1_default_ttl_is_24_times c (ls : Storage) now key v :
  Z.abs (defaultCacheMinutes c) < 10 ^ 21 ->
  wrapped v = false ->
  set c ls now key v None !! key
  = Some (JSON_stringify (entry (now + 60000 * (24 * defaultCacheMinutes c)) v)).
Proof.
  intros Hd Hw. rewrite set_default_minutes, set_lookup.
  rewrite applyExpirationDate_plain by done. unfold parseInt10.
  by rewrite (proj2 (Z.ltb_lt _ _) Hd).
Qed.

(** C2 (amended): [get] answers [null] when the text of the slot parses
    to a falsy value, which is what [forget] leaves under a key that
    names no member of the Storage object, or to an expired entry; text
    that does not parse is not recovered, and the SyntaxError of
    [JSON.parse] reaches the caller. *)
Theorem C2_get_absent_or_raises (ls : Storage) (now : Z) (key : string) :
  (JSON_parse (slot_text ls key) = None -> get ls now key = Throw SyntaxError) /\
  (forall data, JSON_parse (slot_text ls key) = Some data ->
     truthy data = false -> get ls now key = Normal JNull) /\
  (forall data, JSON_parse (slot_text ls key) = Some data ->
     _isExpired now data = Normal true -> get ls now key = Normal JNull) /\
  (data_key key -> JSON_parse "null" = Some JNull ->
     get (forget ls key) now key = Normal JNull).
Proof.
  repeat split.
  - intros Hp. unfold get. by rewrite Hp.
  - intros data Hp Hf. unfold get. by rewrite Hp, Hf.
  - intros data Hp Hx. by apply get_expired with data.
  - intros Hk Hn. unfold get, forget. by rewrite slot_text_insert, Hn.
Qed.

(** C4: an entry with a timestamp is expired exactly when the clock has
    reached it, so it is expired at [expires] itself and live one
    millisecond before; [get] answers [null] for an expired entry and the
    value of a live one. *)
Theorem C4_expired_iff_clock_reached (ls : Storage) (now : Z) (key : string)
    (fields : list (string * JsVal)) (e : Z) :
  own "hasOwnProperty" fields = None ->
  own "expires" fields = Some (JNum e) ->
  JSON_parse (slot_text ls key) = Some (JObj fields) ->
  (_isExpired now (JObj fields) = Normal true <-> now >= e) /\
  (_isExpired now (JObj fields) = Normal false <-> now < e) /\
  _isExpired e (JObj fields) = Normal true /\
  _isExpired (e - 1) (JObj fields) = Normal false /\
  (now >= e -> get ls now key = Normal JNull) /\
  (now < e -> get ls now key = Normal (prop (JObj fields) "value")).
Proof.
  intros Hm He Hp.
  assert (Hx : forall n, _isExpired n (JObj fields) = Normal (e <=? n))
    by (intros n; by apply isExpired_timestamp).
  repeat split.
  - rewrite Hx. intros [= Hle]. apply Z.leb_le in Hle. lia.
  - intros Hge. rewrite Hx. f_equal. apply Z.leb_le. lia.
  - rewrite Hx. intros [= Hle]. apply Z.leb_gt in Hle. lia.
  - intros Hlt. rewrite Hx. f_equal. apply Z.leb_gt. lia.
  - rewrite Hx. f_equal. apply Z.leb_le. lia.
  - rewrite Hx. f_equal. apply Z.leb_gt. lia.
  - intros Hge. apply get_expired with (JObj fields); [done |].
    rewrite Hx. f_equal. apply Z.leb_le. lia.
  - intros Hlt. apply get_live; [done |].
    rewrite Hx. f_equal. apply Z.leb_gt. lia.
Qed.

(** C5 (amended): for a key that names no member of the Storage object
    and a value that does not already carry a truthy [expires] and whose
    entry survives serialisation, [get] before the [t] minutes have
    passed returns the value given to [set] with a TTL [t > 0]. *)
Theorem C5_get_after_set (c : t) (ls : Storage) (now now' : Z) (key : string)
    (v : JsVal) (t : Z) :
  data_key key ->
  wrapped v = false ->
  0 < t ->
  now' < now + 60000 * t ->
  survives (entry (now + 60000 * t) v) ->
  get (set c ls now key v (Some t)) now' key = Normal v.
Proof.
  intros Hk Hw Ht Hnow Hrt. unfold set.
  rewrite applyExpirationDate_plain by done.
  rewrite (get_live _ _ _ [("expires", JNum (now + 60000 * t)); ("value", v)]).
  - done.
  - by rewrite slot_text_insert.
  - rewrite (isExpired_timestamp _ _ (now + 60000 * t)) by done.
    f_equal. apply Z.leb_gt. lia.
Qed.

(** C6 (amended): [forever] persists the value without an [expires]
    field, and when the key names no member of the Storage object and
    that entry survives serialisation, [get] returns the value as long
    as the slot holds that text, whatever the clock says. *)
Theorem C6_forever_never_expires (ls ls' : Storage) (key : string) (v : JsVal) :
  data_key key ->
  survives (JObj [("value", v)]) ->
  ls' !! key = forever ls key v !! key ->
  forever ls key v !! key = Some (JSON_stringify (JObj [("value", v)])) /\
  hasOwnProperty (JObj [("value", v)]) "expires" = Normal false /\
  forall now : Z, get ls' now key = Normal v.
Proof.
  intros Hd Hrt Hslot.
  assert (Hk : forever ls key v !! key = Some (JSON_stringify (JObj [("value", v)])))
    by (unfold forever; by rewrite lookup_insert_eq).
  split; [done |]. split; [done |]. intros now.
  rewrite (get_live _ _ _ [("value", v)]).
  - done.
  - rewrite slot_text_item by done. by rewrite Hslot, Hk.
  - by apply isExpired_no_timestamp.
Qed.

End Generic.
End SimpleCacheProps.

(** ** SimpleCache on concrete inputs *)

Module SimpleCacheExamples.
Import SimpleCache Terms Inputs SimpleCacheProps.
#[local] Existing Instance Fake.host.

(** The failing input of C1: a default of one minute, a plain value. *)
Lemma C1_witness :
  set (constructor 1) ∅ 0 "k" (JNum 5) None !! "k"
  = Some (JSON_stringify (entry (0 + 60000 * (24 * 1)) (JNum 5))).
Proof.
  apply (C1_default_ttl_is_24_times (H := Fake.host) (constructor 1) ∅ 0 "k" (JNum 5));
    [simpl; lia | reflexivity].
Defined.

(** What is read back there expires at 1440000, not at 60000. *)
Example default_of_one_minute :
  JSON_parse (slot_text (set (constructor 1) ∅ 0 "k" (JNum 5) None) "k")
  = Some (entry 1440000 (JNum 5)).
Proof. vm_compute. reflexivity. Qed.

(** C2 as stated fails: text that is not JSON makes [get] raise, and so
    does a slot that was never written. *)
Lemma C2_counterexample_malformed :
  get {["k" := "{oops"]} 0 "k" = Throw SyntaxError /\
  get ∅ 0 "k" = Throw SyntaxError.
Proof. split; vm_compute; reflexivity. Qed.

(** After [forget], [get] answers [null]. *)
Lemma C2_witness : get (forget ∅ "k") 0 "k" = Normal JNull.
Proof.
  apply (C2_get_absent_or_raises (H := Fake.host) ∅ 0 "k");
    [intros ?; reflexivity | vm_compute; reflexivity].
Defined.

(** An entry written at 0 for one minute, read at the boundary. *)
Lemma C4_witness :
  _isExpired 60000 (entry 60000 ana) = Normal true /\
  _isExpired 59999 (entry 60000 ana) = Normal false /\
  get (set (constructor 30) ∅ 0 "k" ana (Some 1)) 60000 "k" = Normal JNull.
Proof.
  destruct (C4_expired_iff_clock_reached (H := Fake.host)
    (set (constructor 30) ∅ 0 "k" ana (Some 1)) 60000 "k"
    [("expires", JNum 60000); ("value", ana)] 60000)
    as (_ & _ & Hat & Hbefore & Hget & _);
    [reflexivity | reflexivity | vm_compute; reflexivity |].
  split; [exact Hat | split; [exact Hbefore | apply Hget; lia]].
Defined.

(** C5 as stated fails: a value that carries [expires] is stored
    unwrapped, and [get] returns its [value] field; a value that
    serialisation rewrites comes back rewritten; and under the key
    [length] the read gives the number of items, so [get] answers
    [undefined]. *)
Lemma C5_counterexample_lookalike :
  (get (set (constructor 30) ∅ 1000 "k" lookalike (Some 5)) 1000 "k" = Normal (JNum 7) /\
   JNum 7 <> lookalike) /\
  (get (set (constructor 30) ∅ 1000 "k" holey (Some 5)) 1000 "k" = Normal (JArr [JNull]) /\
   JArr [JNull] <> holey) /\
  (get (set (constructor 30) ∅ 1000 "length" ana (Some 5)) 1000 "length"
   = Normal JUndefined /\
   JUndefined <> ana).
Proof. repeat split; try discriminate; vm_compute; reflexivity. Qed.

(** A record written for one minute and read at once. *)
Lemma C5_witness :
  get (set (constructor 30) ∅ 1000 "users_42" ana (Some 1)) 1000 "users_42" = Normal ana.
Proof.
  apply (C5_get_after_set (H := Fake.host));
    [intros ?; reflexivity | reflexivity | lia | lia | vm_compute; reflexivity].
Defined.

(** C6 as stated fails for a value that serialisation rewrites, and
    under the key [length], where the read gives the number of items. *)
Lemma C6_counterexample_holey :
  (get (forever ∅ "k" holey) 0 "k" = Normal (JArr [JNull]) /\
   JArr [JNull] <> holey) /\
  (get (forever ∅ "length" ana) 0 "length" = Normal JUndefined /\
   JUndefined <> ana).
Proof. repeat split; try discriminate; vm_compute; reflexivity. Qed.

(** A record kept for ever, read in the year 10000. *)
Lemma C6_witness :
  get (forever ∅ "k" ana) 253402300800000 "k" = Normal ana.
Proof.
  apply (C6_forever_never_expires (H := Fake.host) ∅ (forever ∅ "k" ana) "k" ana);
    [intros ?; reflexivity | vm_compute; reflexivity | reflexivity].
Defined.

End SimpleCacheExamples.

(** * Properties of AngularOneDataFetcher *)

Module FetcherProps.
Import AngularOneDataFetcher Terms.

Section Generic.
Context `{Host} {S : Type}.
Implicit Types (f : t S) (w : World S) (params : list JsVal).

Lemma count_app p (l1 l2 : list Event) :
  count p (l1 ++ l2) = (count p l1 + count p l2)%nat.
Proof. unfold count. by rewrite filter_app, length_app. Qed.

Lemma count_one p (e : Event) : count p [e] = if p e then 1%nat else 0%nat.
Proof.
  unfold count. rewrite filter_cons, filter_nil. destruct (p e); by case_decide.
Qed.

Lemma count_loader p f e :
  count p (loader f e) = if _ionicLoading f && p e then 1%nat else 0%nat.
Proof.
  unfold loader. destruct (_ionicLoading f); [| done]. apply count_one.
Qed.

Lemma count_fetched p f params events :
  count p (fetched f params events)
  = (count p events + (if _ionicLoading f && p Show then 1 else 0)
     + (if p (Fetch params) then 1 else 0)
     + (if _ionicLoading f && p Hide then 1 else 0))%nat.
Proof.
  unfold fetched. rewrite !count_app, !count_loader, count_one. lia.
Qed.

Lemma count_failed p f params events :
  count p (failed f params events)
  = (count p (fetched f params events)
     + (if p (Alert alertMessage) then 1 else 0))%nat.
Proof. unfold failed. by rewrite count_app, count_one. Qed.

Lemma in_fetched f params events : In (Fetch params) (fetched f params events).
Proof.
  unfold fetched. apply in_or_app. right. apply in_or_app. right. by left.
Qed.

Lemma paired_fetched f params events : paired events (fetched f params events).
Proof.
  unfold paired. rewrite !count_fetched. simpl.
  rewrite !andb_false_r, !andb_true_r. lia.
Qed.

Lemma paired_failed f params events : paired events (failed f params events).
Proof.
  unfold paired. rewrite !count_failed. simpl.
  pose proof (paired_fetched f params events) as Hp. unfold paired in Hp. lia.
Qed.

(** The cache write touches the store and leaves the log alone. *)
Lemma saveToCache_saved f later data params w :
  _saveToCache f later data params w
  = let '(c, st) := saved f later data params (store w) in
    (c, {| store := st; log := log w |}).
Proof.
  unfold saved, _saveToCache. destruct w as [st events]; simpl.
  destruct (_cacheService f) as [cs |]; [| done].
  by destruct (_cacheDuration f);
    [destruct (cs_set cs st later (_buildKey f params) data None)
    |destruct (cs_forever cs st (_buildKey f params) data)
    |destruct (cs_set cs st later (_buildKey f params) data (Some n))].
Qed.

Lemma getFromCache_cached f now params w :
  _getFromCache f now params w = (cached f now params (store w), w).
Proof.
  unfold cached, _getFromCache. by destruct (_cacheService f).
Qed.

(** [_fetchFromOrigin], case by case on how the fetch settles. *)
Lemma fetchFromOrigin_run f params w :
  _fetchFromOrigin f params w
  = match _fetchingStrategy f params with
    | Resolved d =>
        (Normal (Resolved d), {| store := store w; log := fetched f params (log w) |})
    | Rejected e =>
        (Normal (Rejected e), {| store := store w; log := failed f params (log w) |})
    | Pending =>
        (Normal Pending,
         {| store := store w; log := log w ++ loader f Show ++ [Fetch params] |})
    end.
Proof.
  unfold _fetchFromOrigin, failed, fetched, loader, loading, fetchingStrategy, emit.
  unfold _q, then_, lift, resolve, reject, mbind, Action_bind, mret, Action_ret.
  destruct w as [st events].
  destruct (_ionicLoading f), (_fetchingStrategy f params); simpl;
    by rewrite <- ?app_assoc, ?app_nil_r.
Qed.

Lemma refresh_run f later params w :
  refresh f later params w
  = match _fetchingStrategy f params with
    | Resolved d =>
        match saved f later d params (store w) with
        | (Normal _, st) =>
            (Normal (Resolved d), {| store := st; log := fetched f params (log w) |})
        | (Throw e, st) =>
            (Normal (Rejected e), {| store := st; log := fetched f params (log w) |})
        end
    | Rejected e =>
        (Normal (Rejected e), {| store := store w; log := failed f params (log w) |})
    | Pending =>
        (Normal Pending,
         {| store := store w; log := log w ++ loader f Show ++ [Fetch params] |})
    end.
Proof.
  unfold refresh, mbind, Action_bind. rewrite fetchFromOrigin_run.
  destruct (_fetchingStrategy f params) as [d | e |]; [| done | done].
  unfold then_, mbind, Action_bind. rewrite saveToCache_saved. simpl.
  by destruct (saved f later d params (store w)) as [[[] | e] st].
Qed.

(** A cached value that passes the test of [get] is its answer. *)
Lemma get_hit f now later params w data :
  cached f now params (store w) = Normal data ->
  hit data = true ->
  get f now later params w = (Normal (Resolved data), w).
Proof.
  intros Hc Hh. unfold get, _q, lift, mbind, Action_bind.
  rewrite getFromCache_cached, Hc. unfold hit in Hh. by rewrite Hh.
Qed.

(** A cached value that fails the test sends [get] to the origin. *)
Lemma get_miss f now later params w data :
  cached f now params (store w) = Normal data ->
  hit data = false ->
  get f now later params w
  = match _fetchingStrategy f params with
    | Resolved d =>
        match saved f later d params (store w) with
        | (Normal _, st) =>
            (Normal (Resolved d), {| store := st; log := fetched f params (log w) |})
        | (Throw _, st) =>
            (Normal Pending, {| store := st; log := fetched f params (log w) |})
        end
    | Rejected e =>
        (Normal (Rejected e), {| store := store w; log := failed f params (log w) |})
    | Pending =>
        (Normal Pending,
         {| store := store w; log := log w ++ loader f Show ++ [Fetch params] |})
    end.
Proof.
  intros Hc Hh. unfold get, _q, lift, mbind, Action_bind.
  rewrite getFromCache_cached, Hc. unfold hit in Hh. rewrite Hh.
  rewrite fetchFromOrigin_run.
  destruct (_fetchingStrategy f params) as [d | e |]; [| done | done].
  unfold then_, lift, mbind, Action_bind. rewrite saveToCache_saved. simpl.
  by destruct (saved f later d params (store w)) as [[[] | e] st].
Qed.

Lemma get_miss_refetched f now later params w data :
  cached f now params (store w) = Normal data ->
  hit data = false ->
  refetched f later params w (get f now later params w).
Proof.
  intros Hc Hh. rewrite (get_miss _ _ _ _ _ data) by done.
  unfold refetched.
  destruct (_fetchingStrategy f params) as [d | e |] eqn:Hs.
  - destruct (saved f later d params (store w)) as [[[] | e] st] eqn:Hsave;
      simpl; rewrite count_fetched, !andb_false_r; simpl;
      (split; [lia |]); (split; [apply in_fetched |]);
      (split; [| by intros ? [=]]); intros d' st' [= <-] Hsave';
      rewrite Hsave in Hsave'; by simplify_eq.
  - simpl. rewrite count_failed, count_fetched, !andb_false_r; simpl.
    split; [lia |]. split; [apply in_or_app; left; apply in_fetched |].
    split; [by intros ? ? [=] | by intros ? [= <-]].
  - simpl. rewrite !count_app, count_loader, count_one, andb_false_r. simpl.
    split; [lia |].
    split; [apply in_or_app; right; apply in_or_app; right; by left |].
    split; [by intros ? ? [=] | by intros ? [=]].
Qed.

(** C3 (amended): after a fetch that succeeded with [d], a cache write
    that completes lets [refresh] and [get] resolve with [d]; a cache
    write that raises [e] is not isolated: [refresh] rejects with [e],
    and the promise of [get] is left unsettled. *)
Theorem C3_cache_write_not_isolated f now later params w d :
  _fetchingStrategy f params = Resolved d ->
  (forall st, saved f later d params (store w) = (Normal (), st) ->
     refresh f later params w
     = (Normal (Resolved d), {| store := st; log := fetched f params (log w) |}) /\
     (forall data, cached f now params (store w) = Normal data ->
        hit data = false ->
        get f now later params w
        = (Normal (Resolved d), {| store := st; log := fetched f params (log w) |}))) /\
  (forall e st, saved f later d params (store w) = (Throw e, st) ->
     refresh f later params w
     = (Normal (Rejected e), {| store := st; log := fetched f params (log w) |}) /\
     (forall data, cached f now params (store w) = Normal data ->
        hit data = false ->
        get f now later params w
        = (Normal Pending, {| store := st; log := fetched f params (log w) |}))).
Proof.
  intros Hs. split.
  - intros st Hsave. split.
    + by rewrite refresh_run, Hs, Hsave.
    + intros data Hc Hh. by rewrite (get_miss _ _ _ _ _ data), Hs, Hsave.
  - intros e st Hsave. split.
    + by rewrite refresh_run, Hs, Hsave.
    + intros data Hc Hh. by rewrite (get_miss _ _ _ _ _ data), Hs, Hsave.
Qed.

(** C7: when the cache returns a truthy, non-empty value for the built
    key, [get] resolves with it and leaves the store and the log as they
    were: the fetch operation is not invoked and the loader is not
    shown. *)
Theorem C7_cache_hit f (cs : CacheService S) now later params w data :
  _cacheService f = Some cs ->
  cs_get cs (store w) now (_buildKey f params) = Normal data ->
  truthy data = true ->
  _isEmpty data = false ->
  get f now later params w = (Normal (Resolved data), w) /\
  count is_fetch (log (get f now later params w).2) = count is_fetch (log w) /\
  count is_show (log (get f now later params w).2) = count is_show (log w).
Proof.
  intros Hcs Hget Ht He.
  assert (Hg : get f now later params w = (Normal (Resolved data), w)).
  { apply get_hit.
    - unfold cached, _getFromCache. by rewrite Hcs.
    - unfold hit. by rewrite Ht, He. }
  by rewrite Hg.
Qed.

(** C8: when the cache returns an empty object or an empty array, [get]
    does not resolve with it: the fetch operation is invoked once, and
    the outcome is that of the fetch. *)
Theorem C8_empty_value_is_miss f (cs : CacheService S) now later params w data :
  _cacheService f = Some cs ->
  cs_get cs (store w) now (_buildKey f params) = Normal data ->
  data = JObj [] \/ data = JArr [] ->
  hit data = false /\
  refetched f later params w (get f now later params w).
Proof.
  intros Hcs Hget Hd.
  assert (Hh : hit data = false) by (by destruct Hd as [-> | ->]).
  split; [done |]. apply get_miss_refetched with data; [| done].
  unfold cached, _getFromCache. by rewrite Hcs.
Qed.

(** C9: when the fetch operation rejects with [e], [refresh] and [get]
    on a miss reject with [e], the alert is raised once, and the loader
    is hidden as often as it was shown; on the success path too the
    loader is hidden as often as it was shown. *)
Theorem C9_fetch_failure f now later params w :
  (forall e, _fetchingStrategy f params = Rejected e ->
     refresh f later params w
     = (Normal (Rejected e), {| store := store w; log := failed f params (log w) |}) /\
     (forall data, cached f now params (store w) = Normal data ->
        hit data = false ->
        get f now later params w
        = (Normal (Rejected e), {| store := store w; log := failed f params (log w) |})) /\
     count is_alert (failed f params (log w)) = Datatypes.S (count is_alert (log w)) /\
     paired (log w) (failed f params (log w))) /\
  (forall d, _fetchingStrategy f params = Resolved d ->
     log (refresh f later params w).2 = fetched f params (log w) /\
     (forall data, cached f now params (store w) = Normal data ->
        hit data = false ->
        log (get f now later params w).2 = fetched f params (log w)) /\
     paired (log w) (fetched f params (log w))).
Proof.
  split.
  - intros e Hs. split; [| split; [| split]].
    + by rewrite refresh_run, Hs.
    + intros data Hc Hh. by rewrite (get_miss _ _ _ _ _ data), Hs.
    + rewrite count_failed, count_fetched. simpl.
      rewrite !andb_false_r. lia.
    + apply paired_failed.
  - intros d Hs. split; [| split].
    + rewrite refresh_run, Hs.
      by destruct (saved f later d params (store w)) as [[[] | e] st].
    + intros data Hc Hh. rewrite (get_miss _ _ _ _ _ data), Hs by done.
      by destruct (saved f later d params (store w)) as [[[] | e] st].
    + apply paired_fetched.
Qed.

(** C10: a number or a boolean (like [null] and [undefined]) is empty for
    the check that [get] applies, so such a cached value is never a hit:
    the fetch operation is invoked again. *)
Theorem C10_primitive_is_miss f (cs : CacheService S) now later params w data :
  _cacheService f = Some cs ->
  cs_get cs (store w) now (_buildKey f params) = Normal data ->
  non_collection_primitive data = true ->
  _isEmpty data = true /\
  hit data = false /\
  refetched f later params w (get f now later params w).
Proof.
  intros Hcs Hget Hp.
  assert (He : _isEmpty data = true) by (by destruct data).
  assert (Hh : hit data = false) by (unfold hit; rewrite He; apply andb_false_r).
  split; [done |]. split; [done |].
  apply get_miss_refetched with data; [| done].
  unfold cached, _getFromCache. by rewrite Hcs.
Qed.

(** A non-empty string or array, though, is array-like and not empty. *)
Lemma isEmpty_array_like (v : JsVal) :
  match v with
  | JStr s => _isEmpty v = String.eqb s ""
  | JArr items => _isEmpty v = bool_decide (items = [])
  | _ => True
  end.
Proof. destruct v as [| | | | | [|] |]; done. Qed.

End Generic.
End FetcherProps.

(** ** AngularOneDataFetcher on concrete inputs *)

Module FetcherExamples.
Import AngularOneDataFetcher Terms Inputs FetcherProps.
#[local] Existing Instance Fake.host.

Definition cache : SimpleCache.t := SimpleCache.constructor 30.

(** The key built for the single parameter 42. *)
Example buildKey_users_42 :
  _buildKey (users (fun _ => Pending) (simpleCacheService cache)) [JNum 42] = "users_42".
Proof. vm_compute. reflexivity. Qed.

(** C3 as stated fails: with a storage that is full, [refresh] rejects
    with the error of the write and the promise of [get] never settles,
    although the fetch succeeded. *)
Lemma C3_counterexample_full_storage :
  refresh (users (fun _ => Resolved ana) fullStorageService) 5 [JNum 42]
    (world (SimpleCache.forget ∅ "users_42"))
  = (Normal (Rejected QuotaExceededError),
     {| store := SimpleCache.forget ∅ "users_42";
        log := [Show; Fetch [JNum 42]; Hide] |}) /\
  get (users (fun _ => Resolved ana) fullStorageService) 0 5 [JNum 42]
    (world (SimpleCache.forget ∅ "users_42"))
  = (Normal Pending,
     {| store := SimpleCache.forget ∅ "users_42";
        log := [Show; Fetch [JNum 42]; Hide] |}).
Proof. split; vm_compute; reflexivity. Qed.

(** With a storage that has room, [refresh] resolves with the data. *)
Lemma C3_witness :
  (refresh (users (fun _ => Resolved ana) (simpleCacheService cache)) 5 [JNum 42]
     (world (SimpleCache.forget ∅ "users_42"))).1
  = Normal (Resolved ana).
Proof.
  destruct (C3_cache_write_not_isolated (H := Fake.host)
    (users (fun _ => Resolved ana) (simpleCacheService cache)) 0 5 [JNum 42]
    (world (SimpleCache.forget ∅ "users_42")) ana eq_refl) as [Hok _].
  destruct (Hok _ eq_refl) as [Hrefresh _].
  rewrite Hrefresh. reflexivity.
Defined.

(** The cache-hit scenario: [users_42] holds a live entry. *)
Lemma C7_witness :
  get (users (fun _ => Resolved ana) (simpleCacheService cache)) 0 5 [JNum 42]
    (world (SimpleCache.set cache ∅ 0 "users_42" (JObj [("id", JNum 42)]) (Some 1)))
  = (Normal (Resolved (JObj [("id", JNum 42)])),
     world (SimpleCache.set cache ∅ 0 "users_42" (JObj [("id", JNum 42)]) (Some 1))).
Proof.
  apply (C7_cache_hit (H := Fake.host) _ (simpleCacheService cache));
    [reflexivity | vm_compute; reflexivity | reflexivity | reflexivity].
Defined.

(** The empty-result scenario: [users_42] holds an empty object. *)
Lemma C8_witness :
  count is_fetch
    (log (get (users (fun _ => Resolved ana) (simpleCacheService cache)) 0 5 [JNum 42]
            (world (SimpleCache.forever ∅ "users_42" (JObj [])))).2)
  = 1%nat.
Proof.
  destruct (C8_empty_value_is_miss (H := Fake.host)
    (users (fun _ => Resolved ana) (simpleCacheService cache)) (simpleCacheService cache)
    0 5 [JNum 42] (world (SimpleCache.forever ∅ "users_42" (JObj []))) (JObj []))
    as (_ & Hcount & _);
    [reflexivity | vm_compute; reflexivity | left; reflexivity |].
  exact Hcount.
Defined.

(** The failure scenario: the fetch rejects with a network error. *)
Lemma C9_witness :
  get (users (fun _ => Rejected networkError) (simpleCacheService cache)) 0 5 [JNum 42]
    (world (SimpleCache.forget ∅ "users_42"))
  = (Normal (Rejected networkError),
     {| store := SimpleCache.forget ∅ "users_42";
        log := [Show; Fetch [JNum 42]; Hide; Alert alertMessage] |}).
Proof.
  destruct (C9_fetch_failure (H := Fake.host)
    (users (fun _ => Rejected networkError) (simpleCacheService cache)) 0 5 [JNum 42]
    (world (SimpleCache.forget ∅ "users_42"))) as [Hfail _].
  destruct (Hfail networkError eq_refl) as (_ & Hget & _).
  apply (Hget JNull); [vm_compute; reflexivity | reflexivity].
Defined.

(** A cached number is fetched again. *)
Lemma C10_witness :
  count is_fetch
    (log (get (users (fun _ => Resolved ana) (simpleCacheService cache)) 0 5 [JNum 42]
            (world (SimpleCache.forever ∅ "users_42" (JNum 42)))).2)
  = 1%nat.
Proof.
  destruct (C10_primitive_is_miss (H := Fake.host)
    (users (fun _ => Resolved ana) (simpleCacheService cache)) (simpleCacheService cache)
    0 5 [JNum 42] (world (SimpleCache.forever ∅ "users_42" (JNum 42))) (JNum 42))
    as (_ & _ & Hcount & _);
    [reflexivity | vm_compute; reflexivity | reflexivity |].
  exact Hcount.
Defined.

(** A cached string that is not empty is a hit. *)
Example cached_string_is_hit :
  get (users (fun _ => Resolved ana) (simpleCacheService cache)) 0 5 [JNum 42]
    (world (SimpleCache.forever ∅ "users_42" (JStr "Ana")))
  = (Normal (Resolved (JStr "Ana")),
     world (SimpleCache.forever ∅ "users_42" (JStr "Ana"))).
Proof. vm_compute. reflexivity. Qed.

(** With a [SimpleCache] behind it, [get] on a key that was never written
    raises the SyntaxError of the cache. *)
Example get_never_written_raises :
  get (users (fun _ => Resolved ana) (simpleCacheService cache)) 0 5 [JNum 42] (world ∅)
  = (Throw SyntaxError, world ∅).
Proof. vm_compute. reflexivity. Qed.

End FetcherExamples.

(** * Further properties of SimpleCache *)

Module CacheExtras.
Import SimpleCache Terms MoreTerms SimpleCacheProps.

Section Generic.
Context `{Host}.

(** Under a key that names no member, [get] reads one slot only. *)
Lemma get_slot (ls ls' : Storage) now key :
  data_key key -> ls !! key = ls' !! key -> get ls now key = get ls' now key.
Proof. intros Hd Hk. unfold get. by rewrite !slot_text_item, Hk. Qed.

(** What [get] answers for a stored entry with a numeric timestamp. *)
Lemma get_entry (ls : Storage) now key e v :
  JSON_parse (slot_text ls key) = Some (entry e v) ->
  get ls now key = Normal (if e <=? now then JNull else v).
Proof.
  intros Hp.
  assert (Hx : _isExpired now (entry e v) = Normal (e <=? now))
    by (by apply isExpired_timestamp).
  destruct (e <=? now) eqn:He.
  - by apply get_expired with (entry e v).
  - by rewrite (get_live _ _ _ [("expires", JNum e); ("value", v)]).
Qed.

(** What [get] answers for plain data written by [set] for [t] minutes. *)
Lemma get_set_plain (c : t) (ls : Storage) now now' key v t :
  data_key key ->
  wrapped v = false ->
  survives (entry (now + 60000 * t) v) ->
  get (set c ls now key v (Some t)) now' key
  = Normal (if now + 60000 * t <=? now' then JNull else v).
Proof.
  intros Hk Hw Hs. apply get_entry. unfold set.
  by rewrite slot_text_insert, applyExpirationDate_plain.
Qed.


(** X1: a write to one key ([set], [forever] or [forget]) leaves what
    [get] answers for every other key as it was, provided that the other
    key names no member of the Storage object. *)
Theorem writes_leave_other_keys (c : t) (ls : Storage) (now now' : Z)
    (key key' : string) (v : JsVal) (ttl : option Z) :
  data_key key' ->
  key <> key' ->
  get (set c ls now key v ttl) now' key' = get ls now' key' /\
  get (forever ls key v) now' key' = get ls now' key' /\
  get (forget ls key) now' key' = get ls now' key'.
Proof.
  intros Hd Hne. repeat split; apply get_slot; try done;
    unfold set, forever, forget; by rewrite lookup_insert_ne.
Qed.

(** X2: a write replaces the slot, it does not merge: two storages that
    differ in one slot only are the same storage after a [set], a
    [forever] or a [forget] on that slot, so whatever was written there
    before is gone. *)
Theorem last_write_wins (c : t) (ls earlier : Storage) (now : Z) (key : string)
    (v : JsVal) (ttl : option Z) :
  (forall k, k <> key -> earlier !! k = ls !! k) ->
  set c earlier now key v ttl = set c ls now key v ttl /\
  forever earlier key v = forever ls key v /\
  forget earlier key = forget ls key.
Proof.
  intros Hother.
  assert (Hins : forall text : string, <[key := text]> earlier = <[key := text]> ls).
  { intros text. apply map_eq. intros k. destruct (decide (key = k)) as [<- | Hne].
    - by rewrite !lookup_insert_eq.
    - rewrite !lookup_insert_ne by done. by apply Hother. }
  unfold set, forever, forget. by rewrite !Hins.
Qed.

(** X3: under a key that names no member of the Storage object, an
    entry written by [set] with [t] minutes lives exactly that long:
    [get] returns the value while the clock is below [now + 60000 * t]
    and [null] from then on; with [t <= 0] it is expired at once. *)
Theorem set_lifetime (c : t) (ls : Storage) (now now' : Z) (key : string)
    (v : JsVal) (t : Z) :
  data_key key ->
  wrapped v = false ->
  survives (entry (now + 60000 * t) v) ->
  get (set c ls now key v (Some t)) now' key
  = Normal (if now + 60000 * t <=? now' then JNull else v).
Proof.
  intros Hk Hw Hs. apply get_entry. unfold set.
  by rewrite slot_text_insert, applyExpirationDate_plain.
Qed.

(** X4: without a per-call TTL, and with a default below 10^21, the
    entry lives 24 times the default of the store, counted in minutes
    (the key naming no member of the Storage object). *)
Theorem set_default_lifetime (c : t) (ls : Storage) (now now' : Z) (key : string)
    (v : JsVal) :
  data_key key ->
  Z.abs (defaultCacheMinutes c) < 10 ^ 21 ->
  wrapped v = false ->
  survives (entry (now + 1440000 * defaultCacheMinutes c) v) ->
  get (set c ls now key v None) now' key
  = Normal (if now + 1440000 * defaultCacheMinutes c <=? now' then JNull else v).
Proof.
  intros Hk Hd Hw Hs. rewrite set_default_minutes. unfold parseInt10.
  rewrite (proj2 (Z.ltb_lt _ _) Hd).
  replace (now + 1440000 * defaultCacheMinutes c)
    with (now + 60000 * (24 * defaultCacheMinutes c)) in * by lia.
  by apply get_set_plain.
Qed.

(** X5: saving an entry again keeps its expiry: [set] stores a record
    that already has a non-zero [expires] as it is, whatever the clock
    and the TTL of the call, and under a key that names no member of the
    Storage object [get] goes by the old timestamp. *)
Theorem resave_keeps_expiry (c : t) (ls : Storage) (now now' : Z) (key : string)
    (e : Z) (v : JsVal) (ttl : option Z) :
  data_key key ->
  e <> 0 ->
  survives (entry e v) ->
  set c ls now key (entry e v) ttl = <[key := JSON_stringify (entry e v)]> ls /\
  get (set c ls now key (entry e v) ttl) now' key
  = Normal (if e <=? now' then JNull else v).
Proof.
  intros Hk He Hs.
  assert (Hw : wrapped (entry e v) = true).
  { unfold wrapped; simpl. by apply negb_true_iff, Z.eqb_neq. }
  assert (Hset : set c ls now key (entry e v) ttl
                 = <[key := JSON_stringify (entry e v)]> ls).
  { unfold set. by rewrite applyExpirationDate_wrapped. }
  split; [done |]. apply get_entry. by rewrite Hset, slot_text_insert.
Qed.

(** X6: a slot whose text parses to a truthy value that is not an
    object, or to an object with neither [expires] nor [value], is
    neither a miss nor an error: [get] answers [undefined]. *)
Theorem get_non_entry (ls : Storage) (now : Z) (key : string) (data : JsVal) :
  JSON_parse (slot_text ls key) = Some data ->
  truthy data = true ->
  not_object data = true \/
  (exists fields, data = JObj fields /\ own "hasOwnProperty" fields = None /\
     own "expires" fields = None /\ own "value" fields = None) ->
  get ls now key = Normal JUndefined.
Proof.
  intros Hp Ht Hd. unfold get. rewrite Hp, Ht. simpl.
  destruct Hd as [Hn | (fields & -> & Hm & He & Hv)].
  - assert (Hx : _isExpired now data = Normal false)
      by (unfold _isExpired; rewrite Ht; by destruct data).
    rewrite Hx. simpl. rewrite Ht. by destruct data.
  - rewrite (isExpired_no_timestamp now fields Hm He). simpl. by rewrite Hv.
Qed.

(** X7: a stored object with an own property named [hasOwnProperty]
    makes [get] raise a TypeError, at any clock. *)
Theorem get_shadowed_method (ls : Storage) (now : Z) (key : string)
    (fields : list (string * JsVal)) (x : JsVal) :
  JSON_parse (slot_text ls key) = Some (JObj fields) ->
  own "hasOwnProperty" fields = Some x ->
  get ls now key = Throw TypeError.
Proof.
  intros Hp Hm. unfold get, _isExpired, hasOwnProperty. rewrite Hp. simpl.
  by rewrite Hm.
Qed.

End Generic.
End CacheExtras.

(** * Further properties of AngularOneDataFetcher *)

Module FetcherExtras.
Import AngularOneDataFetcher Terms MoreTerms SimpleCacheProps FetcherProps CacheExtras.

Section Generic.
Context `{Host} {S : Type}.
Implicit Types (f : t S) (w : World S) (params : list JsVal).

(** A lookup that raises ends [get] there. *)
Lemma get_raise f now later params w e :
  cached f now params (store w) = Throw e ->
  get f now later params w = (Throw e, w).
Proof.
  intros Hc. unfold get, _q, lift, mbind, Action_bind.
  by rewrite getFromCache_cached, Hc.
Qed.

Lemma saved_without_cache f later data params (st : S) :
  _cacheService f = None -> saved f later data params st = (Normal (), st).
Proof. intros Hcs. unfold saved, _saveToCache. by rewrite Hcs. Qed.

(** X8: with no caching service [get] is [refresh]: same promise, same
    calls, and the store is left as it was. *)
Theorem get_without_cache f now later params w :
  _cacheService f = None ->
  get f now later params w = refresh f later params w /\
  store (get f now later params w).2 = store w.
Proof.
  intros Hcs.
  assert (Hc : cached f now params (store w) = Normal (JBool false))
    by (unfold cached, _getFromCache; by rewrite Hcs).
  rewrite (get_miss _ _ _ _ _ (JBool false)), refresh_run by done.
  destruct (_fetchingStrategy f params) as [d | e |]; [| done | done].
  by rewrite saved_without_cache.
Qed.

(** X9: one operation extends the log and never rewrites it; [refresh]
    calls the fetching strategy exactly once, [get] at most once, and the
    alert is raised only after a call that the strategy rejected. *)
Theorem calls_of_one_operation f now later params w :
  (exists tail,
     log (refresh f later params w).2 = log w ++ tail /\
     count is_fetch tail = 1%nat /\
     count is_alert tail
     = match _fetchingStrategy f params with Rejected _ => 1%nat | _ => 0%nat end) /\
  (exists tail,
     log (get f now later params w).2 = log w ++ tail /\
     (count is_fetch tail <= 1)%nat /\
     (count is_alert tail <= count is_fetch tail)%nat /\
     count is_alert tail
     <= match _fetchingStrategy f params with Rejected _ => 1 | _ => 0 end)%nat.
Proof.
  assert (Hok : count is_fetch (loader f Show ++ [Fetch params] ++ loader f Hide) = 1%nat
                /\ count is_alert (loader f Show ++ [Fetch params] ++ loader f Hide) = 0%nat).
  { rewrite !count_app, !count_loader, !count_one, !andb_false_r. done. }
  assert (Hko : count is_fetch
                  ((loader f Show ++ [Fetch params] ++ loader f Hide) ++ [Alert alertMessage])
                = 1%nat
                /\ count is_alert
                  ((loader f Show ++ [Fetch params] ++ loader f Hide) ++ [Alert alertMessage])
                = 1%nat).
  { rewrite !count_app, !count_loader, !count_one, !andb_false_r. done. }
  assert (Hpe : count is_fetch (loader f Show ++ [Fetch params]) = 1%nat
                /\ count is_alert (loader f Show ++ [Fetch params]) = 0%nat).
  { rewrite !count_app, !count_loader, !count_one, !andb_false_r. done. }
  destruct Hok as [Hok1 Hok2], Hko as [Hko1 Hko2], Hpe as [Hpe1 Hpe2].
  split.
  - rewrite refresh_run. unfold failed, fetched.
    destruct (_fetchingStrategy f params) as [d | e |].
    + exists (loader f Show ++ [Fetch params] ++ loader f Hide).
      by destruct (saved f later d params (store w)) as [[[] | e] st].
    + exists ((loader f Show ++ [Fetch params] ++ loader f Hide) ++ [Alert alertMessage]).
      split; [simpl; by rewrite <- !app_assoc | done].
    + by exists (loader f Show ++ [Fetch params]).
  - destruct (cached f now params (store w)) as [data | e] eqn:Hc.
    + destruct (hit data) eqn:Hh.
      * rewrite (get_hit _ _ _ _ _ data) by done. exists []. simpl.
        rewrite app_nil_r. repeat split; try done; unfold count; simpl; lia.
      * rewrite (get_miss _ _ _ _ _ data) by done. unfold failed, fetched.
        destruct (_fetchingStrategy f params) as [d | e |].
        -- exists (loader f Show ++ [Fetch params] ++ loader f Hide).
           rewrite Hok1, Hok2.
           destruct (saved f later d params (store w)) as [[[] | e] st];
             repeat split; try done; lia.
        -- exists ((loader f Show ++ [Fetch params] ++ loader f Hide)
                   ++ [Alert alertMessage]).
           rewrite Hko1, Hko2. split; [simpl; by rewrite <- !app_assoc |].
           repeat split; lia.
        -- exists (loader f Show ++ [Fetch params]).
           rewrite Hpe1, Hpe2. repeat split; try done; lia.
    + rewrite (get_raise _ _ _ _ _ e) by done. exists []. simpl.
      rewrite app_nil_r. repeat split; try done; unfold count; simpl; lia.
Qed.

(** X10: when the promise of the fetching strategy never settles, the
    promise of [refresh] and of [get] never settles either, the store is
    untouched, and a loader that was shown is not hidden. *)
Theorem pending_fetch_leaves_loader_shown f now later params w :
  _fetchingStrategy f params = Pending ->
  refresh f later params w
  = (Normal Pending,
     {| store := store w; log := log w ++ loader f Show ++ [Fetch params] |}) /\
  (forall data, cached f now params (store w) = Normal data ->
     hit data = false ->
     get f now later params w
     = (Normal Pending,
        {| store := store w; log := log w ++ loader f Show ++ [Fetch params] |})) /\
  (_ionicLoading f = true ->
     count is_show (log w ++ loader f Show ++ [Fetch params])
     = Datatypes.S (count is_show (log w)) /\
     count is_hide (log w ++ loader f Show ++ [Fetch params]) = count is_hide (log w)).
Proof.
  intros Hs. split; [| split].
  - by rewrite refresh_run, Hs.
  - intros data Hc Hh. by rewrite (get_miss _ _ _ _ _ data), Hs.
  - intros Hl. rewrite !count_app, !count_loader, !count_one, Hl. simpl. lia.
Qed.

(** X11: when the lookup in the caching service raises, [get] raises the
    same error to its caller: no promise is returned, the fetching
    strategy is not called and the loader is not shown. *)
Theorem get_raises_with_cache f (cs : CacheService S) now later params w e :
  _cacheService f = Some cs ->
  cs_get cs (store w) now (_buildKey f params) = Throw e ->
  get f now later params w = (Throw e, w).
Proof.
  intros Hcs Hget. apply get_raise. unfold cached, _getFromCache. by rewrite Hcs.
Qed.

Lemma append_assoc (a b c : string) : (a +:+ b) +:+ c = a +:+ b +:+ c.
Proof.
  induction a as [| x a IH]; [done |].
  change (String x ((a +:+ b) +:+ c) = String x (a +:+ b +:+ c)). by rewrite IH.
Qed.

Lemma prefix_append (s r rest : string) :
  String.prefix s r = true -> String.prefix s (r +:+ rest) = true.
Proof.
  revert r. induction s as [| a s IH]; intros r.
  { intros _. by destruct (r +:+ rest). }
  destruct r as [| b r]; [done |].
  change (String b r +:+ rest) with (String b (r +:+ rest)). simpl.
  destruct (ascii_dec a b); [apply IH | done].
Qed.

Lemma prefix_refl (s : string) : String.prefix s s = true.
Proof.
  induction s as [| a s IH]; simpl; [done |]. by destruct (ascii_dec a a).
Qed.

Lemma buildKey_app f ps qs :
  _buildKey f (ps ++ qs)
  = fold_left (fun result param => result +:+ "_" +:+ _snakeCase param) qs (_buildKey f ps).
Proof. unfold _buildKey. by rewrite fold_left_app. Qed.

(** X12: the key built for a list of parameters is the base key when the
    list is empty, and extending the list extends the key: the key of
    the shorter list is a prefix of the key of the longer one. *)
Theorem buildKey_extends f ps qs :
  _buildKey f [] = default "null" (_key f) /\
  String.prefix (_buildKey f ps) (_buildKey f (ps ++ qs)) = true.
Proof.
  split; [done |]. rewrite buildKey_app.
  assert (Hgen : forall acc, String.prefix (_buildKey f ps) acc = true ->
    String.prefix (_buildKey f ps)
      (fold_left (fun result param => result +:+ "_" +:+ _snakeCase param) qs acc)
    = true).
  { induction qs as [| q qs IH]; intros acc Hacc; simpl; [done |].
    apply IH. by apply prefix_append. }
  apply Hgen, prefix_refl.
Qed.

(** X13: keys are not injective in the parameters: a parameter whose
    token is the tokens of two others joined by [_] gives the key that
    those two give, so the two calls share one cache slot. *)
Theorem buildKey_collision f ps (p a b : JsVal) :
  _snakeCase p = _snakeCase a +:+ "_" +:+ _snakeCase b ->
  _buildKey f (ps ++ [p]) = _buildKey f (ps ++ [a; b]).
Proof.
  intros Hp. rewrite !buildKey_app. simpl. rewrite Hp.
  by rewrite !append_assoc.
Qed.

End Generic.

Section WithSimpleCache.
Context `{Host}.
Implicit Types (f : t Storage) (w : World Storage) (params : list JsVal).








End WithSimpleCache.
End FetcherExtras.

(** ** Further properties of SimpleCache on concrete inputs *)

Module CacheExtrasExamples.
Import SimpleCache Terms MoreTerms Inputs CacheExtras.
#[local] Existing Instance Fake.host.

(** A write to [b] does not disturb the record under [a]. *)
Lemma writes_leave_other_keys_witness :
  get (forget (forever ∅ "a" ana) "b") 0 "a" = Normal ana.
Proof.
  destruct (writes_leave_other_keys (H := Fake.host) (constructor 30)
    (forever ∅ "a" ana) 0 0 "b" "a" JNull None) as (_ & _ & Hforget);
    [intros ?; reflexivity | discriminate |].
  rewrite Hforget. vm_compute. reflexivity.
Defined.

(** [forever] after [set] is [forever] alone. *)
Lemma last_write_wins_witness :
  forever (set (constructor 30) ∅ 0 "k" (JNum 1) (Some 1)) "k" ana = forever ∅ "k" ana.
Proof.
  apply (last_write_wins (H := Fake.host) (constructor 30) ∅
    (set (constructor 30) ∅ 0 "k" (JNum 1) (Some 1)) 0 "k" ana None).
  intros k Hne. unfold set. rewrite lookup_insert_ne by congruence. reflexivity.
Defined.

(** One minute after a write for one minute the entry is gone; a TTL of
    zero expires at once. *)
Lemma set_lifetime_witness :
  get (set (constructor 30) ∅ 1000 "k" ana (Some 0)) 1000 "k" = Normal JNull.
Proof.
  apply (set_lifetime (H := Fake.host) (constructor 30) ∅ 1000 1000 "k" ana 0);
    [intros ?; reflexivity | reflexivity | vm_compute; reflexivity].
Defined.

(** A default of 30 keeps the entry for 720 minutes. *)
Lemma set_default_lifetime_witness :
  get (set (constructor 30) ∅ 0 "k" ana None) 43199999 "k" = Normal ana /\
  get (set (constructor 30) ∅ 0 "k" ana None) 43200000 "k" = Normal JNull.
Proof.
  split.
  - apply (set_default_lifetime (H := Fake.host) (constructor 30) ∅ 0 43199999 "k" ana);
      [intros ?; reflexivity | simpl; lia | reflexivity | vm_compute; reflexivity].
  - apply (set_default_lifetime (H := Fake.host) (constructor 30) ∅ 0 43200000 "k" ana);
      [intros ?; reflexivity | simpl; lia | reflexivity | vm_compute; reflexivity].
Defined.

(** An entry due at 5000 is saved again at 1000 for an hour: it still
    expires at 5000. *)
Lemma resave_keeps_expiry_witness :
  get (set (constructor 30) ∅ 1000 "k" (entry 5000 ana) (Some 60)) 5000 "k" = Normal JNull.
Proof.
  destruct (resave_keeps_expiry (H := Fake.host) (constructor 30) ∅ 1000 5000 "k"
    5000 ana (Some 60)) as [_ Hget];
    [intros ?; reflexivity | discriminate | vm_compute; reflexivity |].
  exact Hget.
Defined.

(** A slot holding the text 5 reads [undefined]. *)
Lemma get_non_entry_witness : get {["k" := "5"]} 0 "k" = Normal JUndefined.
Proof.
  apply (get_non_entry (H := Fake.host) {["k" := "5"]} 0 "k" (JNum 5));
    [vm_compute; reflexivity | reflexivity | left; reflexivity].
Defined.

(** An object that carries a field named [hasOwnProperty]. *)
Lemma get_shadowed_method_witness :
  get {["k" := JSON_stringify (JObj [("hasOwnProperty", JNum 1)])]} 0 "k"
  = Throw TypeError.
Proof.
  apply (get_shadowed_method (H := Fake.host) _ 0 "k" [("hasOwnProperty", JNum 1)] (JNum 1));
    [vm_compute; reflexivity | reflexivity].
Defined.

End CacheExtrasExamples.

(** ** Further properties of AngularOneDataFetcher on concrete inputs *)

Module FetcherExtrasExamples.
Import AngularOneDataFetcher Terms MoreTerms Inputs MoreInputs FetcherExtras.
#[local] Existing Instance Fake.host.

(** Without a cache, [get] and [refresh] give the same. *)
Lemma get_without_cache_witness :
  get (uncached (fun _ => Resolved ana)) 0 5 [JNum 42] (world ∅)
  = refresh (uncached (fun _ => Resolved ana)) 5 [JNum 42] (world ∅).
Proof.
  apply (get_without_cache (H := Fake.host)
    (uncached (fun _ => Resolved ana)) 0 5 [JNum 42] (world ∅)).
  reflexivity.
Defined.

(** A fetch that never settles: the loader was shown and stays. *)
Lemma pending_fetch_leaves_loader_shown_witness :
  refresh (usersForAMinute (fun _ => Pending)) 5 [JNum 42] (world ∅)
  = (Normal Pending, {| store := ∅; log := [Show; Fetch [JNum 42]] |}).
Proof.
  apply (pending_fetch_leaves_loader_shown (H := Fake.host)
    (usersForAMinute (fun _ => Pending)) 0 5 [JNum 42] (world ∅)).
  reflexivity.
Defined.

(** A [SimpleCache] raises on a slot that was never written, and so does
    [get]. *)
Lemma get_raises_with_cache_witness :
  get (usersForAMinute (fun _ => Resolved ana)) 0 5 [JNum 42] (world ∅)
  = (Throw SyntaxError, world ∅).
Proof.
  apply (get_raises_with_cache (H := Fake.host)
    (usersForAMinute (fun _ => Resolved ana)) (simpleCacheService halfHour));
    [reflexivity | vm_compute; reflexivity].
Defined.

(** One parameter with a space, or two parameters: the same key. *)
Lemma buildKey_collision_witness :
  _buildKey (uncached (fun _ => Pending)) [JStr "a b"]
  = _buildKey (uncached (fun _ => Pending)) [JStr "a"; JStr "b"].
Proof.
  apply (buildKey_collision (H := Fake.host) (uncached (fun _ => Pending)) []
    (JStr "a b") (JStr "a") (JStr "b")).
  vm_compute. reflexivity.
Defined.





End FetcherExtrasExamples.
